(** * serve-demo.py: the CORS demo server

    A shallow embedding of [vanilla-demos-only/serve-demo.py] and of the
    parts of the Python standard library it runs on ([http.server],
    [socketserver], the builtins [int], [str], [print] and the [%]
    operator on strings), followed by the properties of the server.

    The script itself is sixty lines: a request-handler class that
    overrides three hooks of [SimpleHTTPRequestHandler], a start-up routine
    and a [__main__] block.  What a request gets back is decided by the
    library code that calls those hooks, so that code is modelled too,
    method by method, under the names it has in CPython. *)

From Stdlib Require Import String Ascii List ZArith Lia Bool DecimalString.
Import ListNotations.

Local Open Scope string_scope.
Local Open Scope Z_scope.

(** ** Python text primitives *)

Module Py.

(** [str(n)] for an integer. *)
Definition str (n : Z) : string := NilZero.string_of_int (Z.to_int n).

Definition dquote : string := String (ascii_of_nat 34) EmptyString.
Definition CRLF : string :=
  String (ascii_of_nat 13) (String (ascii_of_nat 10) EmptyString).
Definition LF : string := String (ascii_of_nat 10) EmptyString.

(** [c.isspace()] on an ASCII character, as [int] skips it. *)
Definition is_space (c : ascii) : bool :=
  let n := Z.of_nat (nat_of_ascii c) in
  (n =? 32) || ((9 <=? n) && (n <=? 13)).

Definition digit_val (c : ascii) : option Z :=
  let n := Z.of_nat (nat_of_ascii c) in
  if (48 <=? n) && (n <=? 57) then Some (n - 48) else None.

Fixpoint lstrip (s : string) : string :=
  match s with
  | String c r => if is_space c then lstrip r else s
  | EmptyString => EmptyString
  end.

Fixpoint all_space (s : string) : bool :=
  match s with
  | String c r => is_space c && all_space r
  | EmptyString => true
  end.

(** The digits of a base-10 literal: decimal digits, a single underscore
    allowed between two digits, white space allowed after the last one.
    [seen] tells whether the previous character was a digit. *)
Fixpoint int_digits (acc : Z) (seen : bool) (s : string) : option Z :=
  match s with
  | EmptyString => if seen then Some acc else None
  | String c r =>
      match digit_val c with
      | Some d => int_digits (10 * acc + d) true r
      | None =>
          if negb seen then None
          else if Ascii.eqb c "_" then
            match r with
            | String c' _ =>
                match digit_val c' with
                | Some _ => int_digits acc false r
                | None => None
                end
            | EmptyString => None
            end
          else if all_space s then Some acc
          else None
      end
  end.

(** [int(s)] for a [str] argument, base 10: [None] stands for the
    [ValueError] "invalid literal for int() with base 10".  Text is a
    sequence of bytes here, so a decimal digit outside ASCII, which Python
    accepts, is not one in this model. *)
Definition int (s : string) : option Z :=
  match lstrip s with
  | String "+" r => int_digits 0 false r
  | String "-" r => option_map Z.opp (int_digits 0 false r)
  | r => int_digits 0 false r
  end.

(** Arguments of the [%] operator. *)
Inductive value : Type :=
| VStr (s : string)
| VInt (n : Z).

Definition str_value (v : value) : string :=
  match v with
  | VStr s => s
  | VInt n => str n
  end.

(** [fmt % args] for the conversions the server uses ([%s], [%d] and the
    literal [%%]); [None] stands for the [TypeError] or [ValueError] of a
    format that does not fit its arguments. *)
Fixpoint percent (fmt : string) (args : list value) : option string :=
  match fmt with
  | EmptyString =>
      match args with
      | [] => Some EmptyString
      | _ :: _ => None
      end
  | String c r =>
      if Ascii.eqb c "%" then
        match r with
        | String k r' =>
            if Ascii.eqb k "%" then option_map (String "%") (percent r' args)
            else if Ascii.eqb k "s" then
              match args with
              | v :: args' =>
                  option_map (append (str_value v)) (percent r' args')
              | [] => None
              end
            else if Ascii.eqb k "d" then
              match args with
              | VInt n :: args' => option_map (append (str n)) (percent r' args')
              | _ => None
              end
            else None
        | EmptyString => None
        end
      else option_map (String c) (percent r args)
  end.

(** ASCII [str.lower]. *)
Definition lower_ascii (c : ascii) : ascii :=
  let n := nat_of_ascii c in
  if (Nat.leb 65 n && Nat.leb n 90)%bool then ascii_of_nat (n + 32) else c.

Fixpoint lower (s : string) : string :=
  match s with
  | String c r => String (lower_ascii c) (lower r)
  | EmptyString => EmptyString
  end.

Fixpoint endswith_slash (s : string) : bool :=
  match s with
  | EmptyString => false
  | String c EmptyString => Ascii.eqb c "/"
  | String _ r => endswith_slash r
  end.

(** [html.escape(s, quote=False)]. *)
Fixpoint html_escape (s : string) : string :=
  match s with
  | EmptyString => EmptyString
  | String c r =>
      (if Ascii.eqb c "&" then "&amp;"
       else if Ascii.eqb c "<" then "&lt;"
       else if Ascii.eqb c ">" then "&gt;"
       else String c EmptyString) ++ html_escape r
  end.

(** [str(n).rjust(width, '0')] for the non-negative fields of a date. *)
Definition zero_pad (width : nat) (n : Z) : string :=
  let s := str n in
  let fix zeros (k : nat) : string :=
    match k with
    | O => EmptyString
    | S k' => String "0" (zeros k')
    end in
  zeros (width - String.length s)%nat ++ s.

End Py.

(** ** Dates

    [email.utils.formatdate(t, usegmt=True)], which
    [BaseHTTPRequestHandler.date_time_string] returns: the UTC calendar date
    of a POSIX time in the form of RFC 7231.  The clock is read in whole
    seconds. *)

Module Date.

Definition weekdayname : list string :=
  ["Mon"; "Tue"; "Wed"; "Thu"; "Fri"; "Sat"; "Sun"].

Definition monthname : list string :=
  ["Jan"; "Feb"; "Mar"; "Apr"; "May"; "Jun";
   "Jul"; "Aug"; "Sep"; "Oct"; "Nov"; "Dec"].

(** [time.gmtime]: year, month (1..12), day, hour, minute, second and day
    of the week (Monday is 0) of a POSIX time. *)
Record struct_time : Type := mk_struct_time {
  tm_year : Z; tm_mon : Z; tm_mday : Z;
  tm_hour : Z; tm_min : Z; tm_sec : Z; tm_wday : Z
}.

Definition gmtime (t : Z) : struct_time :=
  let days := t / 86400 in
  let secs := t mod 86400 in
  let z := days + 719468 in
  let era := z / 146097 in
  let doe := z - era * 146097 in
  let yoe := (doe - doe / 1460 + doe / 36524 - doe / 146096) / 365 in
  let doy := doe - (365 * yoe + yoe / 4 - yoe / 100) in
  let mp := (5 * doy + 2) / 153 in
  let d := doy - (153 * mp + 2) / 5 + 1 in
  let m := if mp <? 10 then mp + 3 else mp - 9 in
  let y := yoe + era * 400 + (if m <=? 2 then 1 else 0) in
  mk_struct_time y m d (secs / 3600) (secs mod 3600 / 60) (secs mod 60)
                 ((days + 3) mod 7).

Definition formatdate (t : Z) : string :=
  let tm := gmtime t in
  nth (Z.to_nat (tm_wday tm)) weekdayname "" ++ ", " ++
  Py.zero_pad 2 (tm_mday tm) ++ " " ++
  nth (Z.to_nat (tm_mon tm - 1)) monthname "" ++ " " ++
  Py.zero_pad 4 (tm_year tm) ++ " " ++
  Py.zero_pad 2 (tm_hour tm) ++ ":" ++
  Py.zero_pad 2 (tm_min tm) ++ ":" ++
  Py.zero_pad 2 (tm_sec tm) ++ " GMT".

End Date.

(** ** Effects

    Python code is embedded in a state monad with exceptions.  [Hang] is a
    computation that never returns: a wait that nothing ends. *)

Inductive exn : Type :=
| ValueError
| TypeError
| OverflowError
| OSError (strerror : string)
| KeyboardInterrupt.

Inductive result (A : Type) : Type :=
| Return (a : A)
| Raise (e : exn)
| Hang.

Arguments Return {A} a.
Arguments Raise {A} e.
Arguments Hang {A}.

Definition M (S A : Type) : Type := S -> result A * S.

Definition ret {S A : Type} (a : A) : M S A := fun s => (Return a, s).

Definition bind {S A B : Type} (c : M S A) (k : A -> M S B) : M S B :=
  fun s =>
    match c s with
    | (Return a, s') => k a s'
    | (Raise e, s') => (Raise e, s')
    | (Hang, s') => (Hang, s')
    end.

Definition raise {S A : Type} (e : exn) : M S A := fun s => (Raise e, s).

Definition get {S : Type} : M S S := fun s => (Return s, s).

Definition modify {S : Type} (f : S -> S) : M S unit :=
  fun s => (Return tt, f s).

(** [try: c finally: f]. *)
Definition try_finally {S A : Type} (c : M S A) (f : M S unit) : M S A :=
  fun s =>
    match c s with
    | (Return a, s') => bind f (fun _ => ret a) s'
    | (Raise e, s') => bind f (fun _ => raise e) s'
    | (Hang, s') => (Hang, s')
    end.

(** [try: c except E: h], [catches] telling which exceptions are an [E]. *)
Definition try_except {S A : Type} (c : M S A) (catches : exn -> bool)
    (h : M S A) : M S A :=
  fun s =>
    match c s with
    | (Raise e, s') => if catches e then h s' else (Raise e, s')
    | r => r
    end.

Declare Scope py_scope.
Delimit Scope py_scope with py.
Notation "x <- c ;; k" := (bind c (fun x => k))
  (at level 61, c at next level, right associativity) : py_scope.
Notation "c ;; k" := (bind c (fun _ => k))
  (at level 61, right associativity) : py_scope.
Local Open Scope py_scope.

(** ** The request handler's state *)

(** What one write to the client's socket carries.  The bytes on the wire
    are [encode] of the pieces, one after the other. *)
Inductive chunk : Type :=
| StatusLine (protocol : string) (code : Z) (message : string)
| HeaderLine (keyword value : string)
| EndOfHeaders
| Body (data : string).

Definition encode (c : chunk) : string :=
  match c with
  | StatusLine protocol code message =>
      protocol ++ " " ++ Py.str code ++ " " ++ message ++ Py.CRLF
  | HeaderLine keyword value => keyword ++ ": " ++ value ++ Py.CRLF
  | EndOfHeaders => Py.CRLF
  | Body data => data
  end.

Definition wire (w : list chunk) : string := String.concat "" (map encode w).

(** The instance attributes of a request handler after [parse_request],
    with the two process-wide streams [sys.stdout] and [sys.stderr] as the
    handler finds and leaves them.  [command] is [None] while no request
    line has been accepted. *)
Record handler : Type := mk_handler {
  client_address : string * Z;
  directory : string;
  command : option string;
  path : string;
  request_version : string;
  requestline : string;
  headers : list (string * string);
  close_connection : bool;
  _headers_buffer : list chunk;
  wfile : list chunk;
  sys_stdout : list string;
  sys_stderr : list string
}.

Definition set_close_connection (b : bool) (h : handler) : handler :=
  mk_handler (client_address h) (directory h) (command h) (path h)
    (request_version h) (requestline h) (headers h) b
    (_headers_buffer h) (wfile h) (sys_stdout h) (sys_stderr h).

Definition set_headers_buffer (b : list chunk) (h : handler) : handler :=
  mk_handler (client_address h) (directory h) (command h) (path h)
    (request_version h) (requestline h) (headers h) (close_connection h)
    b (wfile h) (sys_stdout h) (sys_stderr h).

Definition set_wfile (w : list chunk) (h : handler) : handler :=
  mk_handler (client_address h) (directory h) (command h) (path h)
    (request_version h) (requestline h) (headers h) (close_connection h)
    (_headers_buffer h) w (sys_stdout h) (sys_stderr h).

Definition set_sys_stdout (o : list string) (h : handler) : handler :=
  mk_handler (client_address h) (directory h) (command h) (path h)
    (request_version h) (requestline h) (headers h) (close_connection h)
    (_headers_buffer h) (wfile h) o (sys_stderr h).

Definition set_sys_stderr (e : list string) (h : handler) : handler :=
  mk_handler (client_address h) (directory h) (command h) (path h)
    (request_version h) (requestline h) (headers h) (close_connection h)
    (_headers_buffer h) (wfile h) (sys_stdout h) e.

(** The two standard streams, which the handler and the process both
    write: one entry per call of [print] or of [sys.stderr.write]. *)
Class Console (S : Type) : Type := {
  write_stdout : string -> S -> S;
  write_stderr : string -> S -> S
}.

Definition print {S : Type} `{Console S} (text : string) : M S unit :=
  modify (write_stdout (text ++ Py.LF)).

Definition stderr_write {S : Type} `{Console S} (text : string) : M S unit :=
  modify (write_stderr text).

#[export] Instance handler_console : Console handler := {
  write_stdout text h := set_sys_stdout (sys_stdout h ++ [text]) h;
  write_stderr text h := set_sys_stderr (sys_stderr h ++ [text]) h
}.

Definition wfile_write (data : string) : M handler unit :=
  modify (fun h => set_wfile (wfile h ++ [Body data]) h).

(** ** The machine the server runs on *)

Inductive node : Type :=
| File (content : option string) (mtime : Z)
| Directory (listing : option (list string)).

(** What a request reads from outside the handler: the interpreter's
    version, the clock ([time.time()], in seconds) and the file system, a
    map from path names to files and directories.  A file whose content is
    [None] exists but cannot be opened, a directory whose listing is [None]
    cannot be listed. *)
Record environment : Type := mk_environment {
  sys_version : string;
  time : Z;
  fs : string -> option node
}.

(** Library functions that only compute text, kept abstract: the
    properties of the handler hold whatever they return.
    - [translate_path]: [SimpleHTTPRequestHandler.translate_path], from
      [self.directory] and the request path to a file-system path;
    - [guess_type]: [SimpleHTTPRequestHandler.guess_type];
    - [urlsplit_path]: [urllib.parse.urlsplit(path).path];
    - [redirect_url]: [urlunsplit] of the request path with a slash added
      to its path part;
    - [listing_page]: the encoded page of [list_directory], from the file
      system, the request path, the directory and its sorted entries;
    - [sort_names]: [list.sort(key=lambda a: a.lower())];
    - [filesystemencoding]: [sys.getfilesystemencoding()];
    - [parsedate_utc]: the POSIX time of
      [email.utils.parsedate_to_datetime(value)] when the value parses and
      is naive or in UTC;
    - [repr]: [repr] of a [str];
    - [log_date_time_string]: the local time of the log line of the base
      class;
    - [escape_control]: [message.translate(_control_char_table)]. *)
Record stdlib : Type := mk_stdlib {
  translate_path : string -> string -> string;
  guess_type : string -> string;
  urlsplit_path : string -> string;
  redirect_url : string -> string;
  listing_page :
    (string -> option node) -> string -> string -> list string -> string;
  sort_names : list string -> list string;
  filesystemencoding : string;
  parsedate_utc : string -> option Z;
  repr : string -> string;
  log_date_time_string : Z -> string;
  escape_control : string -> string
}.

(** [os.path.isdir], [os.path.isfile], [os.path.join], [open(path, 'rb')]
    with [os.fstat] and [os.listdir] on the file system [files]; [None] is
    an [OSError]. *)
Module os.

Definition isdir (files : string -> option node) (p : string) : bool :=
  match files p with
  | Some (Directory _) => true
  | _ => false
  end.

Definition isfile (files : string -> option node) (p : string) : bool :=
  match files p with
  | Some (File _ _) => true
  | _ => false
  end.

Definition join (a b : string) : string :=
  match b with
  | String "/" _ => b
  | _ => if (a =? "")%string || Py.endswith_slash a then a ++ b
         else a ++ "/" ++ b
  end.

Definition open (files : string -> option node) (p : string) : option (string * Z) :=
  match files p with
  | Some (File (Some content) mtime) => Some (content, mtime)
  | _ => None
  end.

Definition listdir (files : string -> option node) (p : string) : option (list string) :=
  match files p with
  | Some (Directory listing) => listing
  | _ => None
  end.

End os.

(** ** http.server.BaseHTTPRequestHandler

    The methods that build and send a response.  A call [self.m()] of a
    method [m] that a subclass may override is a call of the section
    variable [self_m]: the class of the handler decides what it runs. *)

Module BaseHTTPRequestHandler.

Definition protocol_version : string := "HTTP/1.0".
Definition error_content_type : string := "text/html;charset=utf-8".

(** [responses]: the phrase and the description of a status code, for the
    codes this server sends (the table has one entry per member of
    [http.HTTPStatus]). *)
Definition responses (code : Z) : option (string * string) :=
  if code =? 200 then Some ("OK", "Request fulfilled, document follows")
  else if code =? 301 then
    Some ("Moved Permanently", "Object moved permanently -- see URI list")
  else if code =? 304 then
    Some ("Not Modified", "Document has not changed since given time")
  else if code =? 400 then
    Some ("Bad Request", "Bad request syntax or unsupported method")
  else if code =? 404 then Some ("Not Found", "Nothing matches the given URI")
  else if code =? 414 then Some ("Request-URI Too Long", "URI is too long")
  else if code =? 501 then
    Some ("Not Implemented", "Server does not support this operation")
  else if code =? 505 then
    Some ("HTTP Version Not Supported", "Cannot fulfill request")
  else None.

(** [error_message_format % {'code': .., 'message': .., 'explain': ..}]
    with the default template. *)
Definition error_message_format (code : Z) (message explain : string) : string :=
  "<!DOCTYPE HTML>" ++ Py.LF ++
  "<html lang=" ++ Py.dquote ++ "en" ++ Py.dquote ++ ">" ++ Py.LF ++
  "    <head>" ++ Py.LF ++
  "        <meta charset=" ++ Py.dquote ++ "utf-8" ++ Py.dquote ++ ">" ++ Py.LF ++
  "        <title>Error response</title>" ++ Py.LF ++
  "    </head>" ++ Py.LF ++
  "    <body>" ++ Py.LF ++
  "        <h1>Error response</h1>" ++ Py.LF ++
  "        <p>Error code: " ++ Py.str code ++ "</p>" ++ Py.LF ++
  "        <p>Message: " ++ message ++ ".</p>" ++ Py.LF ++
  "        <p>Error code explanation: " ++ Py.str code ++ " - " ++ explain ++
  ".</p>" ++ Py.LF ++
  "    </body>" ++ Py.LF ++
  "</html>" ++ Py.LF.

Definition address_string (h : handler) : string := fst (client_address h).

Definition is_HTTP_0_9 (h : handler) : bool :=
  (request_version h =? "HTTP/0.9")%string.

Definition send_response_only (code : Z) (message : option string)
  : M handler unit :=
  h <- get ;;
  if negb (is_HTTP_0_9 h) then
    let message :=
      match message with
      | Some m => m
      | None => match responses code with
                | Some (phrase, _) => phrase
                | None => ""
                end
      end in
    modify (fun h => set_headers_buffer
      (_headers_buffer h ++ [StatusLine protocol_version code message]) h)
  else ret tt.

Definition send_header (keyword value : string) : M handler unit :=
  h <- get ;;
  (if negb (is_HTTP_0_9 h) then
     modify (fun h => set_headers_buffer
       (_headers_buffer h ++ [HeaderLine keyword value]) h)
   else ret tt) ;;
  if (Py.lower keyword =? "connection")%string then
    if (Py.lower value =? "close")%string then
      modify (set_close_connection true)
    else if (Py.lower value =? "keep-alive")%string then
      modify (set_close_connection false)
    else ret tt
  else ret tt.

Definition flush_headers : M handler unit :=
  modify (fun h =>
    set_headers_buffer [] (set_wfile (wfile h ++ _headers_buffer h) h)).

Definition end_headers : M handler unit :=
  h <- get ;;
  if negb (is_HTTP_0_9 h) then
    modify (fun h => set_headers_buffer
      (_headers_buffer h ++ [EndOfHeaders]) h) ;;
    flush_headers
  else ret tt.

Section Methods.

Variable lib : stdlib.
Variable env : environment.
Variable server_version : string.
Variable self_end_headers : M handler unit.
Variable self_log_message : string -> list Py.value -> M handler unit.

(** The log line of the base class, on [sys.stderr]. *)
Definition log_message (format : string) (args : list Py.value)
  : M handler unit :=
  h <- get ;;
  match Py.percent format args with
  | Some message =>
      stderr_write (address_string h ++ " - - [" ++
                    log_date_time_string lib (time env) ++ "] " ++
                    escape_control lib message ++ Py.LF)
  | None => raise TypeError
  end.

Definition log_request_format : string :=
  Eval cbv in Py.dquote ++ "%s" ++ Py.dquote ++ " %s %s".

Definition log_request (code : Z) : M handler unit :=
  h <- get ;;
  self_log_message log_request_format
    [Py.VStr (requestline h); Py.VStr (Py.str code); Py.VStr "-"].

Definition log_error (format : string) (args : list Py.value)
  : M handler unit :=
  self_log_message format args.

Definition version_string : string := server_version ++ " " ++ sys_version env.

Definition date_time_string (timestamp : Z) : string :=
  Date.formatdate timestamp.

Definition send_response (code : Z) (message : option string)
  : M handler unit :=
  log_request code ;;
  send_response_only code message ;;
  send_header "Server" version_string ;;
  send_header "Date" (date_time_string (time env)).

Definition send_error (code : Z) (message explain : option string)
  : M handler unit :=
  let (shortmsg, longmsg) :=
    match responses code with
    | Some r => r
    | None => ("???", "???")
    end in
  let message := match message with Some m => m | None => shortmsg end in
  let explain := match explain with Some e => e | None => longmsg end in
  log_error "code %d, message %s" [Py.VInt code; Py.VStr message] ;;
  send_response code (Some message) ;;
  send_header "Connection" "close" ;;
  body <-
    (if (200 <=? code) &&
        negb ((code =? 204) || (code =? 205) || (code =? 304)) then
       let body := error_message_format code (Py.html_escape message)
                                        (Py.html_escape explain) in
       send_header "Content-Type" error_content_type ;;
       send_header "Content-Length" (Py.str (Z.of_nat (String.length body))) ;;
       ret (Some body)
     else ret None) ;;
  self_end_headers ;;
  h <- get ;;
  match body with
  | Some body =>
      if negb (match command h with
               | Some c => (c =? "HEAD")%string
               | None => false
               end) && negb (body =? "")%string
      then wfile_write body
      else ret tt
  | None => ret tt
  end.

(** [handle_one_request] from the point where [parse_request] has accepted
    the request: the method [do_] + command of the handler's class, looked
    up by [self_do], or the answer 501 when the class has none. *)
Variable self_do : string -> option (M handler unit).

Definition handle_one_request : M handler unit :=
  h <- get ;;
  match command h with
  | Some c =>
      match self_do c with
      | Some method => method
      | None =>
          send_error 501
            (Some ("Unsupported method (" ++ repr lib c ++ ")")) None
      end
  | None => ret tt
  end.

End Methods.

End BaseHTTPRequestHandler.

(** ** http.server.SimpleHTTPRequestHandler *)

Module SimpleHTTPRequestHandler.

Definition server_version : string := "SimpleHTTP/0.6".

(** [self.headers[name]], names compared without case; [None] when the
    request has no such header. *)
Definition get_header (name : string) (hs : list (string * string))
  : option string :=
  option_map snd
    (find (fun kv => (Py.lower (fst kv) =? Py.lower name)%string) hs).

Section Methods.

Variable lib : stdlib.
Variable env : environment.
Variable self_end_headers : M handler unit.
Variable self_log_message : string -> list Py.value -> M handler unit.

Local Abbreviation send_response :=
  (BaseHTTPRequestHandler.send_response env server_version self_log_message).
Local Abbreviation send_error :=
  (BaseHTTPRequestHandler.send_error env server_version self_end_headers
     self_log_message).
Local Abbreviation send_header := BaseHTTPRequestHandler.send_header.

Definition list_directory (fspath : string) : M handler (option string) :=
  match os.listdir (fs env) fspath with
  | None =>
      send_error 404 (Some "No permission to list directory") None ;;
      ret None
  | Some list =>
      h <- get ;;
      let encoded :=
        listing_page lib (fs env) (path h) fspath (sort_names lib list) in
      send_response 200 None ;;
      send_header "Content-type"
        ("text/html; charset=" ++ filesystemencoding lib) ;;
      send_header "Content-Length" (Py.str (Z.of_nat (String.length encoded))) ;;
      self_end_headers ;;
      ret (Some encoded)
  end.

(** The part of [send_head] that serves the regular file [fspath]. *)
Definition send_file (fspath : string) : M handler (option string) :=
  let ctype := guess_type lib fspath in
  if Py.endswith_slash fspath then
    send_error 404 (Some "File not found") None ;; ret None
  else
    match os.open (fs env) fspath with
    | None => send_error 404 (Some "File not found") None ;; ret None
    | Some (content, mtime) =>
        h <- get ;;
        let not_modified :=
          match get_header "If-Modified-Since" (headers h),
                get_header "If-None-Match" (headers h) with
          | Some value, None =>
              match parsedate_utc lib value with
              | Some ims => mtime <=? ims
              | None => false
              end
          | _, _ => false
          end in
        if not_modified then
          send_response 304 None ;;
          self_end_headers ;;
          ret None
        else
          send_response 200 None ;;
          send_header "Content-type" ctype ;;
          send_header "Content-Length"
            (Py.str (Z.of_nat (String.length content))) ;;
          send_header "Last-Modified"
            (BaseHTTPRequestHandler.date_time_string mtime) ;;
          self_end_headers ;;
          ret (Some content)
    end.

(** [send_head] returns the content of the file object that the caller
    has to copy, or [None] when the response is complete. *)
Definition send_head : M handler (option string) :=
  h <- get ;;
  let fspath := translate_path lib (directory h) (path h) in
  if os.isdir (fs env) fspath then
    if negb (Py.endswith_slash (urlsplit_path lib (path h))) then
      send_response 301 None ;;
      send_header "Location" (redirect_url lib (path h)) ;;
      send_header "Content-Length" "0" ;;
      self_end_headers ;;
      ret None
    else if os.isfile (fs env) (os.join fspath "index.html") then
      send_file (os.join fspath "index.html")
    else if os.isfile (fs env) (os.join fspath "index.htm") then
      send_file (os.join fspath "index.htm")
    else list_directory fspath
  else send_file fspath.

(** [shutil.copyfileobj(source, self.wfile)]: nothing is written for an
    empty source. *)
Definition copyfile (source : string) : M handler unit :=
  if (source =? "")%string then ret tt else wfile_write source.

Definition do_GET : M handler unit :=
  f <- send_head ;;
  match f with
  | Some source => copyfile source
  | None => ret tt
  end.

Definition do_HEAD : M handler unit :=
  f <- send_head ;;
  ret tt.

End Methods.

End SimpleHTTPRequestHandler.

(** ** serve-demo.py: class CORSHTTPRequestHandler *)

Module CORSHTTPRequestHandler.

Definition end_headers : M handler unit :=
  BaseHTTPRequestHandler.send_header "Access-Control-Allow-Origin" "*" ;;
  BaseHTTPRequestHandler.send_header "Access-Control-Allow-Methods"
    "GET, POST, PUT, DELETE, OPTIONS" ;;
  BaseHTTPRequestHandler.send_header "Access-Control-Allow-Headers"
    "Content-Type, Authorization" ;;
  BaseHTTPRequestHandler.send_header "Cache-Control"
    "no-cache, no-store, must-revalidate" ;;
  BaseHTTPRequestHandler.end_headers.

Definition log_message (format : string) (args : list Py.value)
  : M handler unit :=
  h <- get ;;
  match Py.percent format args with
  | Some message =>
      print (BaseHTTPRequestHandler.address_string h ++ " - " ++ message)
  | None => raise TypeError
  end.

Section Methods.

Variable lib : stdlib.
Variable env : environment.

(** The inherited methods, with [self] an instance of this class. *)
Definition send_response : Z -> option string -> M handler unit :=
  BaseHTTPRequestHandler.send_response env
    SimpleHTTPRequestHandler.server_version log_message.

Definition send_error : Z -> option string -> option string -> M handler unit :=
  BaseHTTPRequestHandler.send_error env
    SimpleHTTPRequestHandler.server_version end_headers log_message.

Definition do_GET : M handler unit :=
  SimpleHTTPRequestHandler.do_GET lib env end_headers log_message.

Definition do_HEAD : M handler unit :=
  SimpleHTTPRequestHandler.do_HEAD lib env end_headers log_message.

Definition do_OPTIONS : M handler unit :=
  send_response 200 None ;;
  end_headers.

(** [getattr(self, 'do_' + command)]: the class has [do_OPTIONS] and
    inherits [do_GET] and [do_HEAD]. *)
Definition do_ (command : string) : option (M handler unit) :=
  if (command =? "GET")%string then Some do_GET
  else if (command =? "HEAD")%string then Some do_HEAD
  else if (command =? "OPTIONS")%string then Some do_OPTIONS
  else None.

Definition handle_one_request : M handler unit :=
  BaseHTTPRequestHandler.handle_one_request lib env
    SimpleHTTPRequestHandler.server_version end_headers log_message do_.

End Methods.

End CORSHTTPRequestHandler.

(** ** posixpath *)

Module posixpath.

(** [s.split('/')]. *)
Fixpoint split (s : string) : list string :=
  match s with
  | EmptyString => [EmptyString]
  | String c r =>
      if Ascii.eqb c "/" then EmptyString :: split r
      else match split r with
           | w :: ws => String c w :: ws
           | [] => [String c EmptyString]
           end
  end.

Definition isabs (p : string) : bool :=
  match p with
  | String "/" _ => true
  | _ => false
  end.

(** The loop of [normpath] over the components, [new_comps] kept with its
    last element first. *)
Fixpoint norm_comps (initial_slashes : nat) (comps new_comps : list string)
  : list string :=
  match comps with
  | [] => rev new_comps
  | comp :: comps' =>
      if (comp =? "")%string || (comp =? ".")%string then
        norm_comps initial_slashes comps' new_comps
      else if negb (comp =? "..")%string
              || (Nat.eqb initial_slashes 0 &&
                  match new_comps with [] => true | _ => false end)
              || match new_comps with
                 | last :: _ => (last =? "..")%string
                 | [] => false
                 end
      then norm_comps initial_slashes comps' (comp :: new_comps)
      else norm_comps initial_slashes comps' (tl new_comps)
  end.

Definition normpath (p : string) : string :=
  if (p =? "")%string then "."
  else
    let initial_slashes :=
      match p with
      | String "/" (String "/" (String "/" _)) => 1%nat
      | String "/" (String "/" _) => 2%nat
      | String "/" _ => 1%nat
      | _ => 0%nat
      end in
    let body := String.concat "/" (norm_comps initial_slashes (split p) []) in
    let r := String.concat "" (repeat "/" initial_slashes) ++ body in
    if (r =? "")%string then "." else r.

(** [abspath] in a process whose working directory is [cwd]. *)
Definition abspath (cwd p : string) : string :=
  normpath (if isabs p then p else os.join cwd p).

(** [p[:p.rfind('/') + 1]]. *)
Fixpoint head (p : string) : string :=
  match p with
  | EmptyString => EmptyString
  | String c r =>
      match head r with
      | EmptyString => if Ascii.eqb c "/" then "/" else EmptyString
      | h => String c h
      end
  end.

Fixpoint rstrip_slash (s : string) : string :=
  match s with
  | EmptyString => EmptyString
  | String c r =>
      match rstrip_slash r with
      | EmptyString => if Ascii.eqb c "/" then EmptyString
                       else String c EmptyString
      | r' => String c r'
      end
  end.

Definition dirname (p : string) : string :=
  let h := head p in
  match rstrip_slash h with
  | EmptyString => h
  | h' => h'
  end.

End posixpath.

(** ** The process and its server

    The state of the process: its working directory, what it has written
    to its standard streams, its server socket, the two private attributes
    of [socketserver.BaseServer] that [serve_forever] and [shutdown] use
    (the event [__is_shut_down] and the flag [__shutdown_request]), the
    responses sent, one per connection, and the trace of its system
    calls. *)

Inductive socket_state : Type :=
| NoSocket
| Unbound
| Bound (address : string * Z)
| Listening (address : string * Z)
| Closed.

Inductive syscall : Type :=
| sys_chdir (dir : string)
| sys_socket
| sys_bind (address : string * Z)
| sys_listen
| sys_accept (client : string * Z)
| sys_close.

Record world : Type := mk_world {
  cwd : string;
  stdout : list string;
  stderr : list string;
  socket : socket_state;
  is_shut_down : bool;
  shutdown_request : bool;
  sent : list (list chunk);
  trace : list syscall
}.

Definition set_cwd (d : string) (w : world) : world :=
  mk_world d (stdout w) (stderr w) (socket w) (is_shut_down w)
    (shutdown_request w) (sent w) (trace w).

Definition set_streams (o e : list string) (w : world) : world :=
  mk_world (cwd w) o e (socket w) (is_shut_down w)
    (shutdown_request w) (sent w) (trace w).

Definition set_socket (a : socket_state) (w : world) : world :=
  mk_world (cwd w) (stdout w) (stderr w) a (is_shut_down w)
    (shutdown_request w) (sent w) (trace w).

Definition set_is_shut_down (b : bool) (w : world) : world :=
  mk_world (cwd w) (stdout w) (stderr w) (socket w) b
    (shutdown_request w) (sent w) (trace w).

Definition set_shutdown_request (b : bool) (w : world) : world :=
  mk_world (cwd w) (stdout w) (stderr w) (socket w) (is_shut_down w)
    b (sent w) (trace w).

Definition add_sent (r : list chunk) (w : world) : world :=
  mk_world (cwd w) (stdout w) (stderr w) (socket w) (is_shut_down w)
    (shutdown_request w) (sent w ++ [r]) (trace w).

Definition add_trace (c : syscall) (w : world) : world :=
  mk_world (cwd w) (stdout w) (stderr w) (socket w) (is_shut_down w)
    (shutdown_request w) (sent w) (trace w ++ [c]).

#[export] Instance world_console : Console world := {
  write_stdout text w := set_streams (stdout w ++ [text]) (stderr w) w;
  write_stderr text w := set_streams (stdout w) (stderr w ++ [text]) w
}.

(** A request as [parse_request] leaves it in the handler. *)
Record request : Type := mk_request {
  rq_command : string;
  rq_path : string;
  rq_version : string;
  rq_line : string;
  rq_headers : list (string * string)
}.

(** What happens to the process while it waits in [serve_forever]: a
    client connects and sends a request, which is handled on the machine
    as it is at that moment, or the process is interrupted (Ctrl-C). *)
Inductive event : Type :=
| Connection (client : string * Z) (rq : request) (env : environment)
| Interrupt.

(** The machine as the process finds it: the path of the script
    ([__file__]), the error, if any, of [chdir] to a directory and of
    [bind] to an address, and what is to come while the server waits. *)
Record machine : Type := mk_machine {
  script : string;
  chdir_error : string -> option string;
  bind_error : string * Z -> option string;
  incoming : list event
}.

Definition new_handler (client : string * Z) (rq : request) (w : world)
  : handler :=
  mk_handler client (cwd w) (Some (rq_command rq)) (rq_path rq)
    (rq_version rq) (rq_line rq) (rq_headers rq) true [] []
    (stdout w) (stderr w).

Definition is_KeyboardInterrupt (e : exn) : bool :=
  match e with
  | KeyboardInterrupt => true
  | _ => false
  end.

Definition hang {S A : Type} : M S A := fun s => (Hang, s).

(** [try: c except: cleanup; raise]. *)
Definition on_exception {S A : Type} (c : M S A) (cleanup : M S unit)
  : M S A :=
  fun s =>
    match c s with
    | (Raise e, s') => bind cleanup (fun _ => raise e) s'
    | r => r
    end.

(** ** socketserver.TCPServer

    [RequestHandlerClass] is what constructing a handler of the server's
    class does with a request: [BaseRequestHandler.__init__] runs [handle],
    and the protocol version of the class being HTTP/1.0, [handle] runs
    [handle_one_request] once. *)

Module TCPServer.

Section Server.

Variable m : machine.
Variable RequestHandlerClass : environment -> M handler unit.

Definition server_close : M world unit :=
  modify (add_trace sys_close) ;;
  modify (set_socket Closed).

(** [socket.bind] refuses a port outside 0..65535 before it asks the
    operating system. *)
Definition server_bind (server_address : string * Z) : M world unit :=
  if (snd server_address <? 0) || (65535 <? snd server_address) then
    raise OverflowError
  else
    modify (add_trace (sys_bind server_address)) ;;
    match bind_error m server_address with
    | Some strerror => raise (OSError strerror)
    | None => modify (set_socket (Bound server_address))
    end.

Definition server_activate : M world unit :=
  w <- get ;;
  modify (add_trace sys_listen) ;;
  match socket w with
  | Bound address => modify (set_socket (Listening address))
  | _ => raise (OSError "Invalid argument")
  end.

(** [TCPServer(server_address, RequestHandlerClass)]. *)
Definition __init__ (server_address : string * Z) : M world unit :=
  modify (set_is_shut_down false) ;;
  modify (set_shutdown_request false) ;;
  modify (add_trace sys_socket) ;;
  modify (set_socket Unbound) ;;
  on_exception (server_bind server_address ;; server_activate) server_close.

(** [__exit__] of the [with] statement. *)
Definition __exit__ : M world unit := server_close.

(** The handler runs on the process's streams and in its working
    directory; an exception it raises is reported by [handle_error]. *)
Definition _handle_request_noblock (client : string * Z) (rq : request)
    (env : environment) : M world unit :=
  modify (add_trace (sys_accept client)) ;;
  w <- get ;;
  let (r, h) := RequestHandlerClass env (new_handler client rq w) in
  modify (set_streams (sys_stdout h) (sys_stderr h)) ;;
  modify (add_sent (wfile h)) ;;
  match r with
  | Return _ => ret tt
  | Raise KeyboardInterrupt => raise KeyboardInterrupt
  | Raise _ =>
      stderr_write "Exception occurred during processing of request"
  | Hang => hang
  end.

(** The loop of [serve_forever]: [select] returns when a client has
    connected, is left by a [KeyboardInterrupt] when the process is
    interrupted, and otherwise waits. *)
Fixpoint serve_loop (events : list event) : M world unit :=
  w <- get ;;
  if shutdown_request w then ret tt
  else
    match events with
    | [] => hang
    | Interrupt :: _ => raise KeyboardInterrupt
    | Connection client rq env :: events' =>
        _handle_request_noblock client rq env ;;
        serve_loop events'
    end.

Definition serve_forever : M world unit :=
  modify (set_is_shut_down false) ;;
  try_finally (serve_loop (incoming m))
    (modify (set_shutdown_request false) ;;
     modify (set_is_shut_down true)).

(** [shutdown] waits for the event that the end of [serve_forever] sets. *)
Definition shutdown : M world unit :=
  modify (set_shutdown_request true) ;;
  w <- get ;;
  if is_shut_down w then ret tt else hang.

End Server.

End TCPServer.

(** ** serve-demo.py: run_server and the main block *)

Definition chdir (m : machine) (dir : string) : M world unit :=
  match chdir_error m dir with
  | Some strerror => raise (OSError strerror)
  | None => modify (add_trace (sys_chdir dir)) ;; modify (set_cwd dir)
  end.

(** The text of the banner, an f-string of the port. *)
Definition banner (port : Z) : string :=
  "
╔════════════════════════════════════════════════╗
║       LocumTrueRate Frontend Demo Server       ║
╚════════════════════════════════════════════════╝

Server running at: http://localhost:" ++
  Py.str port ++ "

Available demos:
- API Client Demo: http://localhost:" ++
  Py.str port ++ "/api-client-demo.html

To test the API integration:
1. Make sure the backend is running (npm start)
2. Open the demo URL above in your browser
3. Test authentication and API calls

Press Ctrl+C to stop the server.
        ".

Section Script.

Variable lib : stdlib.
Variable m : machine.

Definition Handler : environment -> M handler unit :=
  CORSHTTPRequestHandler.handle_one_request lib.

Definition run_server (port : Z) : M world unit :=
  w <- get ;;
  chdir m (posixpath.dirname (posixpath.abspath (cwd w) (script m))) ;;
  TCPServer.__init__ m ("", port) ;;
  try_finally
    (print (banner port) ;;
     try_except (TCPServer.serve_forever m Handler) is_KeyboardInterrupt
       (print (Py.LF ++ Py.LF ++ "Server stopped.") ;;
        TCPServer.shutdown))
    TCPServer.__exit__.

(** The block under [if __name__ == "__main__"], [argv] being
    [sys.argv]. *)
Definition main (argv : list string) : M world unit :=
  port <- match argv with
          | _ :: arg :: _ =>
              match Py.int arg with
              | Some n => ret n
              | None => raise ValueError
              end
          | _ => ret 8080
          end ;;
  run_server port.

(** The interpreter running the script: the exit status of the process,
    [None] while it has not ended.  An exception that nothing catches is
    reported on [sys.stderr]. *)
Definition python (argv : list string) (w : world) : option Z * world :=
  match main argv w with
  | (Return _, w') => (Some 0, w')
  | (Raise e, w') =>
      (Some (if is_KeyboardInterrupt e then 130 else 1),
       write_stderr "Traceback (most recent call last):" w')
  | (Hang, w') => (None, w')
  end.

End Script.

(** The process as the interpreter starts it in the directory [dir]. *)
Definition start (dir : string) : world :=
  mk_world dir [] [] NoSocket false false [] [].

(** ** What a client reads in a response *)

Fixpoint response_status (w : list chunk) : option Z :=
  match w with
  | [] => None
  | StatusLine _ code _ :: _ => Some code
  | _ :: w' => response_status w'
  end.



(** The four headers of [CORSHTTPRequestHandler.end_headers]. *)
Definition fixed_headers : list (string * string) :=
  [("Access-Control-Allow-Origin", "*");
   ("Access-Control-Allow-Methods", "GET, POST, PUT, DELETE, OPTIONS");
   ("Access-Control-Allow-Headers", "Content-Type, Authorization");
   ("Cache-Control", "no-cache, no-store, must-revalidate")].

(** ** The effect of the handler's methods on its state

    Each method of the handler returns, and leaves the state that one of
    the functions below computes (lemmas [*_run]). *)

Section Effect.

Import BaseHTTPRequestHandler.

(** One more line in the headers buffer, unless the request is HTTP/0.9. *)
Definition buffered (c : chunk) (h : handler) : handler :=
  if is_HTTP_0_9 h then h
  else set_headers_buffer (_headers_buffer h ++ [c]) h.

(** The buffer written out behind the blank line, unless the request is
    HTTP/0.9. *)
Definition flushed (h : handler) : handler :=
  if is_HTTP_0_9 h then h
  else set_headers_buffer []
         (set_wfile (wfile h ++ (_headers_buffer h ++ [EndOfHeaders])) h).

Definition with_fixed_headers (h : handler) : handler :=
  fold_left (fun h kv => buffered (HeaderLine (fst kv) (snd kv)) h)
    fixed_headers h.

(** One more line on [sys.stdout], as [log_message] prints it. *)
Definition logged (message : string) (h : handler) : handler :=
  set_sys_stdout
    (sys_stdout h ++ [(address_string h ++ " - " ++ message) ++ Py.LF]) h.

Definition request_log (h : handler) (code : Z) : string :=
  Py.dquote ++ requestline h ++ Py.dquote ++ " " ++ Py.str code ++ " -".

Definition error_log (code : Z) (message : string) : string :=
  "code " ++ Py.str code ++ ", message " ++ message.

Definition phrase (code : Z) : string :=
  match responses code with
  | Some (p, _) => p
  | None => ""
  end.

Variable env : environment.

(** [send_response(code, message)]. *)
Definition responded (code : Z) (message : string) (h : handler) : handler :=
  buffered (HeaderLine "Date" (date_time_string (time env)))
    (buffered (HeaderLine "Server"
                 (version_string env SimpleHTTPRequestHandler.server_version))
       (buffered (StatusLine protocol_version code message)
          (logged (request_log h code) h))).

Definition has_error_body (code : Z) : bool :=
  (200 <=? code) && negb ((code =? 204) || (code =? 205) || (code =? 304)).

Definition error_body (code : Z) (message explain : string) : string :=
  error_message_format code (Py.html_escape message) (Py.html_escape explain).

Definition writes_error_body (h : handler) (body : string) : bool :=
  negb (match command h with
        | Some c => (c =? "HEAD")%string
        | None => false
        end) && negb (body =? "")%string.

(** [send_error(code, message, explain)], both texts given. *)
Definition failed (code : Z) (message explain : string) (h : handler)
  : handler :=
  let h1 :=
    set_close_connection true
      (buffered (HeaderLine "Connection" "close")
         (responded code message (logged (error_log code message) h))) in
  if has_error_body code then
    let body := error_body code message explain in
    let h2 :=
      flushed (with_fixed_headers
        (buffered (HeaderLine "Content-Length"
                     (Py.str (Z.of_nat (String.length body))))
           (buffered (HeaderLine "Content-Type" error_content_type) h1))) in
    if writes_error_body h body
    then set_wfile (wfile h2 ++ [Body body]) h2
    else h2
  else flushed (with_fixed_headers h1).

End Effect.

(** ** The answer to a request

    What the handler answers is decided by the request and the file
    system alone ([answer_to]); the clock and the interpreter only show in
    the headers a response is sent with ([answered]).  Lemma
    [handle_one_request_run] proves that the handler does just that. *)

Inductive answer : Type :=
| Plain (code : Z) (extra : list (string * string)) (source : option string)
| Error (code : Z) (message explain : string).

Definition shortmsg (code : Z) : string :=
  match BaseHTTPRequestHandler.responses code with
  | Some (s, _) => s
  | None => "???"
  end.

Definition longmsg (code : Z) : string :=
  match BaseHTTPRequestHandler.responses code with
  | Some (_, l) => l
  | None => "???"
  end.

Section Answer.

Variable lib : stdlib.
Variable files : string -> option node.

Definition not_modified (h : handler) (mtime : Z) : bool :=
  match SimpleHTTPRequestHandler.get_header "If-Modified-Since" (headers h),
        SimpleHTTPRequestHandler.get_header "If-None-Match" (headers h) with
  | Some value, None =>
      match parsedate_utc lib value with
      | Some ims => mtime <=? ims
      | None => false
      end
  | _, _ => false
  end.

Definition file_answer (h : handler) (fspath : string) : answer :=
  if Py.endswith_slash fspath then Error 404 "File not found" (longmsg 404)
  else
    match os.open files fspath with
    | None => Error 404 "File not found" (longmsg 404)
    | Some (content, mtime) =>
        if not_modified h mtime then Plain 304 [] None
        else
          Plain 200
            [("Content-type", guess_type lib fspath);
             ("Content-Length", Py.str (Z.of_nat (String.length content)));
             ("Last-Modified", BaseHTTPRequestHandler.date_time_string mtime)]
            (Some content)
    end.

Definition directory_answer (h : handler) (fspath : string) : answer :=
  match os.listdir files fspath with
  | None => Error 404 "No permission to list directory" (longmsg 404)
  | Some list =>
      let encoded :=
        listing_page lib files (path h) fspath (sort_names lib list) in
      Plain 200
        [("Content-type", "text/html; charset=" ++ filesystemencoding lib);
         ("Content-Length", Py.str (Z.of_nat (String.length encoded)))]
        (Some encoded)
  end.

Definition head_answer (h : handler) : answer :=
  let fspath := translate_path lib (directory h) (path h) in
  if os.isdir files fspath then
    if negb (Py.endswith_slash (urlsplit_path lib (path h))) then
      Plain 301
        [("Location", redirect_url lib (path h)); ("Content-Length", "0")] None
    else if os.isfile files (os.join fspath "index.html") then
      file_answer h (os.join fspath "index.html")
    else if os.isfile files (os.join fspath "index.htm") then
      file_answer h (os.join fspath "index.htm")
    else directory_answer h fspath
  else file_answer h fspath.

(** What [send_head] returns: the file object to copy, if any. *)
Definition source_of (a : answer) : option string :=
  match a with
  | Plain _ _ source => source
  | Error _ _ _ => None
  end.

Definition without_body (a : answer) : answer :=
  match a with
  | Plain code extra _ => Plain code extra None
  | Error code message explain => Error code message explain
  end.

Definition answer_to (h : handler) (command : string) : answer :=
  if (command =? "GET")%string then head_answer h
  else if (command =? "HEAD")%string then without_body (head_answer h)
  else if (command =? "OPTIONS")%string then Plain 200 [] None
  else Error 501 ("Unsupported method (" ++ repr lib command ++ ")")
         (longmsg 501).

End Answer.

(** The state of the handler once it has sent the answer [a]. *)
Definition answered (env : environment) (a : answer) (h : handler) : handler :=
  match a with
  | Plain code extra source =>
      let h1 :=
        flushed (with_fixed_headers
          (fold_left (fun h kv => buffered (HeaderLine (fst kv) (snd kv)) h)
             extra (responded env code (phrase code) h))) in
      match source with
      | Some data =>
          if (data =? "")%string then h1
          else set_wfile (wfile h1 ++ [Body data]) h1
      | None => h1
      end
  | Error code message explain => failed env code message explain h
  end.

(** The log lines of an answer: the messages passed to [log_message]. *)
Definition log_of (h : handler) (a : answer) : list string :=
  match a with
  | Plain code _ _ => [request_log h code]
  | Error code message _ => [error_log code message; request_log h code]
  end.

Definition log_line (address message : string) : string :=
  (address ++ " - " ++ message) ++ Py.LF.

(** ** The bytes of an answer

    What an answer puts on the wire when the request is not HTTP/0.9
    ([response_of]) and when it is ([response_0_9_of]): the handler's
    buffer only fills, and is only written out, in the first case. *)

Definition header (kv : string * string) : chunk :=
  HeaderLine (fst kv) (snd kv).

Definition response_head (env : environment) (code : Z) (message : string)
    (extra : list (string * string)) : list chunk :=
  [StatusLine BaseHTTPRequestHandler.protocol_version code message;
   HeaderLine "Server"
     (BaseHTTPRequestHandler.version_string env
        SimpleHTTPRequestHandler.server_version);
   HeaderLine "Date" (BaseHTTPRequestHandler.date_time_string (time env))]
  ++ map header extra ++ map header fixed_headers ++ [EndOfHeaders].

Definition body_chunks (h : handler) (a : answer) : list chunk :=
  match a with
  | Plain _ _ (Some data) => if (data =? "")%string then [] else [Body data]
  | Plain _ _ None => []
  | Error code message explain =>
      let body := error_body code message explain in
      if has_error_body code && writes_error_body h body then [Body body]
      else []
  end.

Definition error_headers (code : Z) (message explain : string)
  : list (string * string) :=
  ("Connection", "close") ::
  (if has_error_body code then
     [("Content-Type", BaseHTTPRequestHandler.error_content_type);
      ("Content-Length",
       Py.str (Z.of_nat
         (String.length (error_body code message explain))))]
   else []).

Definition response_of (env : environment) (h : handler) (a : answer)
  : list chunk :=
  match a with
  | Plain code extra _ => response_head env code (phrase code) extra
  | Error code message explain =>
      response_head env code message (error_headers code message explain)
  end ++ body_chunks h a.

Definition response_0_9_of (h : handler) (a : answer) : list chunk :=
  body_chunks h a.

(** The response to the request [rq] of a handler that serves the
    directory [dir]. *)
Definition reply (lib : stdlib) (env : environment) (dir : string)
    (rq : request) : list chunk :=
  wfile (snd (CORSHTTPRequestHandler.handle_one_request lib env
    (mk_handler (EmptyString, 0) dir (Some (rq_command rq)) (rq_path rq)
       (rq_version rq) (rq_line rq) (rq_headers rq) true [] [] [] []))).

Definition code_of (a : answer) : Z :=
  match a with
  | Plain code _ _ => code
  | Error code _ _ => code
  end.






(** ** The effect of serving

    What [serve_forever] does with the events to come: it handles the
    connections up to the first interrupt, in order. *)

Fixpoint served (events : list event)
  : list ((string * Z) * request * environment) :=
  match events with
  | Connection client rq env :: events' => (client, rq, env) :: served events'
  | _ => []
  end.

Fixpoint interrupted (events : list event) : bool :=
  match events with
  | [] => false
  | Interrupt :: _ => true
  | Connection _ _ _ :: events' => interrupted events'
  end.

Definition connection (c : (string * Z) * request * environment) : event :=
  Connection (fst (fst c)) (snd (fst c)) (snd c).

(** The state of the process once it has handled one connection. *)
Definition handled (lib : stdlib) (c : (string * Z) * request * environment)
    (w : world) : world :=
  let w1 := add_trace (sys_accept (fst (fst c))) w in
  let h := snd (Handler lib (snd c) (new_handler (fst (fst c)) (snd (fst c)) w1)) in
  add_sent (wfile h) (set_streams (sys_stdout h) (sys_stderr h) w1).

Definition after_serving (lib : stdlib) (events : list event) (w : world)
  : world :=
  fold_left (fun w c => handled lib c w) (served events) w.

(** The addresses of the [bind] calls and the clients of the [accept]
    calls of a trace. *)
Fixpoint binds (t : list syscall) : list (string * Z) :=
  match t with
  | [] => []
  | sys_bind address :: t' => address :: binds t'
  | _ :: t' => binds t'
  end.

Fixpoint accepts (t : list syscall) : list (string * Z) :=
  match t with
  | [] => []
  | sys_accept client :: t' => client :: accepts t'
  | _ :: t' => accepts t'
  end.

(** The state of the process when [run_server] has set up the server on
    the port [port] and printed the banner, the directory of the script
    being [dir]. *)
Definition listening (dir : string) (port : Z) (w : world) : world :=
  write_stdout (banner port ++ Py.LF)
    (set_socket (Listening (EmptyString, port))
       (add_trace sys_listen
          (set_socket (Bound (EmptyString, port))
             (add_trace (sys_bind (EmptyString, port))
                (set_socket Unbound
                   (add_trace sys_socket
                      (set_shutdown_request false
                         (set_is_shut_down false
                            (set_cwd dir (add_trace (sys_chdir dir) w)))))))))).

(** The state of the process when an interrupt has ended [run_server]. *)
Definition stopped (w : world) : world :=
  set_socket Closed
    (add_trace sys_close
       (set_shutdown_request true
          (write_stdout ((Py.LF ++ Py.LF ++ "Server stopped.") ++ Py.LF)
             (set_is_shut_down true (set_shutdown_request false w))))).

Definition script_directory (m : machine) (w : world) : string :=
  posixpath.dirname (posixpath.abspath (cwd w) (script m)).

(** ** A library and a machine for the examples

    The text functions the properties leave abstract, in a simple form:
    the request path is appended to the directory as it is, every file is
    [application/octet-stream], [repr] puts single quotes around the
    text. *)

Definition example_lib : stdlib :=
  mk_stdlib (fun dir p => dir ++ p) (fun _ => "application/octet-stream")
    (fun p => p) (fun p => p ++ "/") (fun _ _ _ _ => "<ul></ul>")
    (fun names => names) "utf-8" (fun _ => None)
    (fun s => "'" ++ s ++ "'") (fun _ => "01/Jan/1970 00:00:00")
    (fun s => s).

(** A machine on which the demo page is the only file. *)
Definition example_fs (p : string) : option node :=
  if (p =? "/srv/demo")%string then Some (Directory (Some ["api-client-demo.html"]))
  else if (p =? "/srv/demo/api-client-demo.html")%string
  then Some (File (Some "<html></html>") 1700000000)
  else None.

Definition example_env (now : Z) : environment :=
  mk_environment "Python/3.11.2" now example_fs.

Definition example_client : string * Z := ("127.0.0.1", 50000).

(** A machine on which the script is [/srv/demo/serve-demo.py], every
    directory can be entered and every port is free. *)
Definition example_machine (events : list event) : machine :=
  mk_machine "/srv/demo/serve-demo.py" (fun _ => None) (fun _ => None) events.

(** Text is left as it is while the handler is run on a symbolic state. *)
Arguments Py.str : simpl never.
Arguments Date.formatdate : simpl never.
Arguments BaseHTTPRequestHandler.date_time_string : simpl never.
Arguments BaseHTTPRequestHandler.version_string : simpl never.
Arguments BaseHTTPRequestHandler.error_message_format : simpl never.
Arguments error_body : simpl never.
Arguments phrase : simpl never.
Arguments shortmsg : simpl never.
Arguments longmsg : simpl never.
Arguments request_log : simpl never.
Arguments error_log : simpl never.
Arguments banner : simpl never.

(** * Properties *)

Example int_9090: Py.int "9090" = Some 9090.
Proof. reflexivity. Qed.

Example int_padded : Py.int "  +1_000 " = Some 1000.
Proof. reflexivity. Qed.

Example int_rejects : map Py.int ["abc"; ""; "80_"; "1__0"; "- 5"; "8080x"; "12.5"] =
                      [None; None; None; None; None; None; None].
Proof. reflexivity. Qed.

Example formatdate_samples :
  map Date.formatdate [0; 1; 1700000000; 951782400; -1; 4102444799; 68169600] =
  ["Thu, 01 Jan 1970 00:00:00 GMT"; "Thu, 01 Jan 1970 00:00:01 GMT";
   "Tue, 14 Nov 2023 22:13:20 GMT"; "Tue, 29 Feb 2000 00:00:00 GMT";
   "Wed, 31 Dec 1969 23:59:59 GMT"; "Thu, 31 Dec 2099 23:59:59 GMT";
   "Tue, 29 Feb 1972 00:00:00 GMT"].
Proof. vm_compute. reflexivity. Qed.

(** ** Each method returns and has the effect of its state function *)

Lemma bind_run {S A B : Type} (c : M S A) (k : A -> M S B) (s s' : S) (a : A) :
  c s = (Return a, s') -> bind c k s = k a s'.
Proof. intros E. unfold bind. rewrite E. reflexivity. Qed.

Lemma is_HTTP_0_9_buffered c h :
  BaseHTTPRequestHandler.is_HTTP_0_9 (buffered c h) =
  BaseHTTPRequestHandler.is_HTTP_0_9 h.
Proof. unfold buffered. destruct (BaseHTTPRequestHandler.is_HTTP_0_9 h) eqn:E; [exact E|exact E]. Qed.

Lemma send_header_run keyword value h :
  (Py.lower keyword =? "connection")%string = false ->
  BaseHTTPRequestHandler.send_header keyword value h =
  (Return tt, buffered (HeaderLine keyword value) h).
Proof.
  intros E. unfold BaseHTTPRequestHandler.send_header, buffered, bind, get.
  rewrite E. destruct (BaseHTTPRequestHandler.is_HTTP_0_9 h); reflexivity.
Qed.

Lemma send_header_close_run h :
  BaseHTTPRequestHandler.send_header "Connection" "close" h =
  (Return tt,
   set_close_connection true (buffered (HeaderLine "Connection" "close") h)).
Proof.
  unfold BaseHTTPRequestHandler.send_header, buffered, bind, get.
  destruct (BaseHTTPRequestHandler.is_HTTP_0_9 h); reflexivity.
Qed.

Lemma send_response_only_run code message h :
  BaseHTTPRequestHandler.send_response_only code message h =
  (Return tt,
   buffered (StatusLine BaseHTTPRequestHandler.protocol_version code
               (match message with Some m => m | None => phrase code end)) h).
Proof.
  unfold BaseHTTPRequestHandler.send_response_only, buffered, bind, get, phrase.
  destruct (BaseHTTPRequestHandler.is_HTTP_0_9 h); [reflexivity|].
  destruct message; [reflexivity|].
  destruct (BaseHTTPRequestHandler.responses code) as [[p d]|]; reflexivity.
Qed.

Lemma base_end_headers_run h :
  BaseHTTPRequestHandler.end_headers h = (Return tt, flushed h).
Proof.
  unfold BaseHTTPRequestHandler.end_headers, flushed, bind, get.
  destruct (BaseHTTPRequestHandler.is_HTTP_0_9 h); reflexivity.
Qed.

Lemma end_headers_run h :
  CORSHTTPRequestHandler.end_headers h =
  (Return tt, flushed (with_fixed_headers h)).
Proof.
  unfold CORSHTTPRequestHandler.end_headers.
  repeat (erewrite bind_run; [|apply send_header_run; reflexivity]).
  apply base_end_headers_run.
Qed.

Lemma log_message_run format args message h :
  Py.percent format args = Some message ->
  CORSHTTPRequestHandler.log_message format args h =
  (Return tt, logged message h).
Proof.
  intros E. unfold CORSHTTPRequestHandler.log_message, bind, get.
  rewrite E. reflexivity.
Qed.

Lemma log_request_run code h :
  BaseHTTPRequestHandler.log_request CORSHTTPRequestHandler.log_message code h =
  (Return tt, logged (request_log h code) h).
Proof.
  unfold BaseHTTPRequestHandler.log_request.
  erewrite bind_run; [|reflexivity].
  apply log_message_run. reflexivity.
Qed.

Lemma send_response_run env code message h :
  CORSHTTPRequestHandler.send_response env code message h =
  (Return tt,
   responded env code (match message with Some m => m | None => phrase code end)
     h).
Proof.
  unfold CORSHTTPRequestHandler.send_response,
    BaseHTTPRequestHandler.send_response.
  erewrite bind_run; [|apply log_request_run].
  erewrite bind_run; [|apply send_response_only_run].
  erewrite bind_run; [|apply send_header_run; reflexivity].
  apply send_header_run. reflexivity.
Qed.

Lemma append_empty (s : string) : s ++ "" = s.
Proof. induction s as [|c s IH]; [reflexivity|]. cbn. now rewrite IH. Qed.

Lemma log_error_run code message h :
  BaseHTTPRequestHandler.log_error CORSHTTPRequestHandler.log_message
    "code %d, message %s" [Py.VInt code; Py.VStr message] h =
  (Return tt, logged (error_log code message) h).
Proof.
  unfold BaseHTTPRequestHandler.log_error.
  apply log_message_run. cbn. unfold error_log. now rewrite append_empty.
Qed.

Lemma command_buffered c h : command (buffered c h) = command h.
Proof. unfold buffered. now destruct (BaseHTTPRequestHandler.is_HTTP_0_9 h). Qed.

Lemma command_flushed h : command (flushed h) = command h.
Proof. unfold flushed. now destruct (BaseHTTPRequestHandler.is_HTTP_0_9 h). Qed.

Lemma command_with_fixed_headers h : command (with_fixed_headers h) = command h.
Proof.
  unfold with_fixed_headers. cbn [fold_left fixed_headers].
  now rewrite !command_buffered.
Qed.

Lemma command_responded env code message h :
  command (responded env code message h) = command h.
Proof. unfold responded. now rewrite !command_buffered. Qed.

Ltac run_basic :=
  lazymatch goal with
  | |- bind _ _ _ = _ => erewrite bind_run; [|run_basic]; run_basic
  | _ =>
      first
        [ apply send_header_run; reflexivity
        | apply send_header_close_run
        | apply end_headers_run
        | apply send_response_run
        | apply log_error_run
        | reflexivity ]
  end.

Lemma send_error_run env code message explain h :
  CORSHTTPRequestHandler.send_error env code message explain h =
  (Return tt,
   answered env
     (Error code
        (match message with Some m => m | None => shortmsg code end)
        (match explain with Some e => e | None => longmsg code end)) h).
Proof.
  unfold CORSHTTPRequestHandler.send_error, BaseHTTPRequestHandler.send_error,
    answered, shortmsg, longmsg.
  destruct (BaseHTTPRequestHandler.responses code) as [[s l]|]; cbv zeta iota beta.
  all: match goal with
       | |- context [failed _ _ ?m ?e _] => set (msg := m); set (exp := e)
       end.
  all: erewrite bind_run; [|apply log_error_run].
  all: erewrite bind_run; [|apply (send_response_run env code (Some msg))].
  all: erewrite bind_run; [|apply send_header_close_run].
  all: unfold failed; fold (has_error_body code);
       destruct (has_error_body code).
  all: erewrite bind_run; [|run_basic].
  all: erewrite bind_run; [|run_basic].
  all: erewrite bind_run; [|run_basic].
  all: try reflexivity.
  all: fold (error_body code msg exp).
  all: match goal with
       | |- context [command ?x] =>
           replace (command x) with (command h)
             by (repeat first
                   [ rewrite command_flushed
                   | rewrite command_with_fixed_headers
                   | rewrite command_buffered
                   | rewrite command_responded
                   | progress cbn [command set_close_connection logged
                                   set_sys_stdout] ];
                 reflexivity)
       end.
  all: fold (writes_error_body h (error_body code msg exp)).
  all: destruct (writes_error_body h (error_body code msg exp)); reflexivity.
Qed.

Ltac run :=
  lazymatch goal with
  | |- bind _ _ _ = _ => erewrite bind_run; [|run]; run
  | _ =>
      first
        [ apply send_header_run; reflexivity
        | apply send_header_close_run
        | apply end_headers_run
        | apply send_response_run
        | apply send_error_run
        | apply log_error_run
        | unfold ret; cbn [answered without_body source_of fold_left fst snd];
          reflexivity ]
  end.

Lemma send_file_run lib env fspath h :
  SimpleHTTPRequestHandler.send_file lib env
    CORSHTTPRequestHandler.end_headers CORSHTTPRequestHandler.log_message
    fspath h =
  (Return (source_of (file_answer lib (fs env) h fspath)),
   answered env (without_body (file_answer lib (fs env) h fspath)) h).
Proof.
  unfold SimpleHTTPRequestHandler.send_file, file_answer.
  fold (CORSHTTPRequestHandler.send_error env).
  fold (CORSHTTPRequestHandler.send_response env).
  destruct (Py.endswith_slash fspath); [run|].
  destruct (os.open (fs env) fspath) as [[content mtime]|]; [|run].
  erewrite bind_run; [|reflexivity].
  fold (not_modified lib h mtime).
  destruct (not_modified lib h mtime); run.
Qed.

Lemma list_directory_run lib env fspath h :
  SimpleHTTPRequestHandler.list_directory lib env
    CORSHTTPRequestHandler.end_headers CORSHTTPRequestHandler.log_message
    fspath h =
  (Return (source_of (directory_answer lib (fs env) h fspath)),
   answered env (without_body (directory_answer lib (fs env) h fspath)) h).
Proof.
  unfold SimpleHTTPRequestHandler.list_directory, directory_answer.
  fold (CORSHTTPRequestHandler.send_error env).
  fold (CORSHTTPRequestHandler.send_response env).
  destruct (os.listdir (fs env) fspath) as [list|]; run.
Qed.

Lemma send_head_run lib env h :
  SimpleHTTPRequestHandler.send_head lib env
    CORSHTTPRequestHandler.end_headers CORSHTTPRequestHandler.log_message h =
  (Return (source_of (head_answer lib (fs env) h)),
   answered env (without_body (head_answer lib (fs env) h)) h).
Proof.
  unfold SimpleHTTPRequestHandler.send_head, head_answer.
  fold (CORSHTTPRequestHandler.send_response env).
  erewrite bind_run; [|reflexivity].
  cbv zeta.
  destruct (os.isdir (fs env) _); [|apply send_file_run].
  destruct (negb (Py.endswith_slash _)); [run|].
  destruct (os.isfile (fs env) _); [apply send_file_run|].
  destruct (os.isfile (fs env) _); [apply send_file_run|].
  apply list_directory_run.
Qed.

Lemma do_GET_run lib env h :
  CORSHTTPRequestHandler.do_GET lib env h =
  (Return tt, answered env (head_answer lib (fs env) h) h).
Proof.
  unfold CORSHTTPRequestHandler.do_GET, SimpleHTTPRequestHandler.do_GET.
  erewrite bind_run; [|apply send_head_run].
  destruct (head_answer lib (fs env) h) as [code extra [data|]|code message explain];
    try reflexivity.
  cbn [source_of without_body answered].
  unfold SimpleHTTPRequestHandler.copyfile.
  destruct (data =? "")%string; reflexivity.
Qed.

Lemma do_HEAD_run lib env h :
  CORSHTTPRequestHandler.do_HEAD lib env h =
  (Return tt, answered env (without_body (head_answer lib (fs env) h)) h).
Proof.
  unfold CORSHTTPRequestHandler.do_HEAD, SimpleHTTPRequestHandler.do_HEAD.
  erewrite bind_run; [|apply send_head_run]. reflexivity.
Qed.

Lemma do_OPTIONS_run env h :
  CORSHTTPRequestHandler.do_OPTIONS env h =
  (Return tt, answered env (Plain 200 [] None) h).
Proof. unfold CORSHTTPRequestHandler.do_OPTIONS. run. Qed.

(** The handler returns, having sent the answer to its request. *)
Lemma handle_one_request_run lib env h c :
  command h = Some c ->
  CORSHTTPRequestHandler.handle_one_request lib env h =
  (Return tt, answered env (answer_to lib (fs env) h c) h).
Proof.
  intros Hc.
  unfold CORSHTTPRequestHandler.handle_one_request,
    BaseHTTPRequestHandler.handle_one_request.
  erewrite bind_run; [|reflexivity]. rewrite Hc.
  unfold CORSHTTPRequestHandler.do_, answer_to.
  fold (CORSHTTPRequestHandler.send_error env).
  destruct (c =? "GET")%string; [apply do_GET_run|].
  destruct (c =? "HEAD")%string; [apply do_HEAD_run|].
  destruct (c =? "OPTIONS")%string; [apply do_OPTIONS_run|].
  apply send_error_run.
Qed.

(** ** What an answer leaves on the wire and in the log *)

Lemma buffered_on c h :
  BaseHTTPRequestHandler.is_HTTP_0_9 h = false ->
  buffered c h = set_headers_buffer (_headers_buffer h ++ [c]) h.
Proof. intros E. unfold buffered. now rewrite E. Qed.

Lemma buffered_off c h :
  BaseHTTPRequestHandler.is_HTTP_0_9 h = true -> buffered c h = h.
Proof. intros E. unfold buffered. now rewrite E. Qed.

Lemma fold_buffered_on l h :
  BaseHTTPRequestHandler.is_HTTP_0_9 h = false ->
  fold_left (fun h kv => buffered (HeaderLine (fst kv) (snd kv)) h) l h =
  set_headers_buffer (_headers_buffer h ++ map header l) h.
Proof.
  revert h. induction l as [|kv l IH]; intros h E; cbn [fold_left map].
  - rewrite app_nil_r. now destruct h.
  - rewrite (buffered_on _ _ E), IH by exact E.
    cbn. unfold header. now rewrite <- app_assoc.
Qed.

Lemma fold_buffered_off l h :
  BaseHTTPRequestHandler.is_HTTP_0_9 h = true ->
  fold_left (fun h kv => buffered (HeaderLine (fst kv) (snd kv)) h) l h = h.
Proof.
  intros E. induction l as [|kv l IH]; cbn [fold_left]; [reflexivity|].
  now rewrite (buffered_off _ _ E).
Qed.

Lemma flushed_on h :
  BaseHTTPRequestHandler.is_HTTP_0_9 h = false ->
  flushed h =
  set_headers_buffer []
    (set_wfile (wfile h ++ (_headers_buffer h ++ [EndOfHeaders])) h).
Proof. intros E. unfold flushed. now rewrite E. Qed.

Lemma flushed_off h :
  BaseHTTPRequestHandler.is_HTTP_0_9 h = true -> flushed h = h.
Proof. intros E. unfold flushed. now rewrite E. Qed.

Lemma is_HTTP_0_9_flushed h :
  BaseHTTPRequestHandler.is_HTTP_0_9 (flushed h) =
  BaseHTTPRequestHandler.is_HTTP_0_9 h.
Proof.
  unfold flushed.
  destruct (BaseHTTPRequestHandler.is_HTTP_0_9 h) eqn:E; exact E.
Qed.

Lemma is_HTTP_0_9_fold_buffered l h :
  BaseHTTPRequestHandler.is_HTTP_0_9
    (fold_left (fun h kv => buffered (HeaderLine (fst kv) (snd kv)) h) l h) =
  BaseHTTPRequestHandler.is_HTTP_0_9 h.
Proof.
  revert h. induction l as [|kv l IH]; intros h; cbn [fold_left];
    [reflexivity|].
  now rewrite IH, is_HTTP_0_9_buffered.
Qed.

Lemma is_HTTP_0_9_logged message h :
  BaseHTTPRequestHandler.is_HTTP_0_9 (logged message h) =
  BaseHTTPRequestHandler.is_HTTP_0_9 h.
Proof. reflexivity. Qed.

Lemma is_HTTP_0_9_set_close_connection b h :
  BaseHTTPRequestHandler.is_HTTP_0_9 (set_close_connection b h) =
  BaseHTTPRequestHandler.is_HTTP_0_9 h.
Proof. reflexivity. Qed.

Lemma is_HTTP_0_9_set_headers_buffer b h :
  BaseHTTPRequestHandler.is_HTTP_0_9 (set_headers_buffer b h) =
  BaseHTTPRequestHandler.is_HTTP_0_9 h.
Proof. reflexivity. Qed.

Lemma is_HTTP_0_9_set_wfile w h :
  BaseHTTPRequestHandler.is_HTTP_0_9 (set_wfile w h) =
  BaseHTTPRequestHandler.is_HTTP_0_9 h.
Proof. reflexivity. Qed.

Lemma is_HTTP_0_9_responded env code message h :
  BaseHTTPRequestHandler.is_HTTP_0_9 (responded env code message h) =
  BaseHTTPRequestHandler.is_HTTP_0_9 h.
Proof.
  unfold responded. now rewrite !is_HTTP_0_9_buffered, is_HTTP_0_9_logged.
Qed.

Create Rewrite HintDb version.
#[local] Hint Rewrite is_HTTP_0_9_buffered is_HTTP_0_9_flushed
  is_HTTP_0_9_fold_buffered is_HTTP_0_9_logged
  is_HTTP_0_9_set_close_connection is_HTTP_0_9_set_headers_buffer
  is_HTTP_0_9_set_wfile is_HTTP_0_9_responded : version.

Ltac same_version E := autorewrite with version; exact E.

Ltac on E :=
  repeat first
    [ rewrite buffered_on by same_version E
    | rewrite fold_buffered_on by same_version E
    | rewrite flushed_on by same_version E ].

Ltac off E :=
  repeat first
    [ rewrite buffered_off by same_version E
    | rewrite fold_buffered_off by same_version E
    | rewrite flushed_off by same_version E ].

(** A request that is not HTTP/0.9 gets the status line, the headers, the
    four fixed ones among them, the blank line and the body. *)
Lemma wfile_answered env a h :
  BaseHTTPRequestHandler.is_HTTP_0_9 h = false ->
  wfile (answered env a h) =
  (wfile h ++ _headers_buffer h ++ response_of env h a)%list.
Proof.
  intros E. destruct a as [code extra source|code message explain].
  - unfold answered, responded, with_fixed_headers, response_of, response_head.
    on E.
    assert (R : forall (d : option string) h1 (w : list chunk),
      wfile h1 = w ->
      wfile match d with
            | Some data => if (data =? "")%string then h1
                           else set_wfile (wfile h1 ++ [Body data]) h1
            | None => h1
            end = (w ++ body_chunks h (Plain code extra d))%list).
    { intros [data|] h1 w <-; cbn [body_chunks].
      - destruct (data =? "")%string; cbn; now rewrite ?app_nil_r.
      - now rewrite app_nil_r. }
    erewrite R; [|reflexivity]. cbn.
    rewrite <- !app_assoc. reflexivity.
  - unfold answered, failed, response_of, response_head, error_headers,
      body_chunks.
    destruct (has_error_body code); cbn [andb].
    + destruct (writes_error_body h _);
        unfold responded, with_fixed_headers; on E; cbn;
        rewrite <- !app_assoc; cbn; rewrite ?app_nil_r; reflexivity.
    + unfold responded, with_fixed_headers; on E; cbn.
      rewrite <- !app_assoc; cbn; rewrite ?app_nil_r; reflexivity.
Qed.

(** An HTTP/0.9 request gets the body and nothing else. *)
Lemma wfile_answered_0_9 env a h :
  BaseHTTPRequestHandler.is_HTTP_0_9 h = true ->
  wfile (answered env a h) = (wfile h ++ response_0_9_of h a)%list.
Proof.
  intros E. unfold response_0_9_of.
  destruct a as [code extra source|code message explain].
  - unfold answered, responded, with_fixed_headers. off E.
    destruct source as [data|]; cbn [body_chunks].
    + destruct (data =? "")%string; cbn; now rewrite ?app_nil_r.
    + cbn. now rewrite app_nil_r.
  - unfold answered, failed, body_chunks.
    destruct (has_error_body code); cbn [andb].
    + destruct (writes_error_body h _);
        unfold responded, with_fixed_headers; off E; cbn;
        now rewrite ?app_nil_r.
    + unfold responded, with_fixed_headers; off E; cbn.
      now rewrite app_nil_r.
Qed.

(** The log of an answer: its lines on [sys.stdout], in the form of
    [log_message], and nothing on [sys.stderr]. *)
Lemma streams_answered env a h :
  sys_stdout (answered env a h) =
  (sys_stdout h ++ map (log_line (BaseHTTPRequestHandler.address_string h))
                     (log_of h a))%list /\
  sys_stderr (answered env a h) = sys_stderr h.
Proof.
  destruct (BaseHTTPRequestHandler.is_HTTP_0_9 h) eqn:E;
    destruct a as [code extra source|code message explain];
    unfold answered, failed, responded, with_fixed_headers, log_of.
  - off E. destruct source as [data|]; [destruct (data =? "")%string|];
      split; reflexivity.
  - destruct (has_error_body code); [destruct (writes_error_body h _)|];
      off E; cbn; rewrite <- app_assoc; split; reflexivity.
  - on E. destruct source as [data|]; [destruct (data =? "")%string|];
      split; reflexivity.
  - destruct (has_error_body code); [destruct (writes_error_body h _)|];
      on E; cbn; rewrite <- app_assoc; split; reflexivity.
Qed.








Lemma response_status_of env h a :
  response_status (response_of env h a) = Some (code_of a).
Proof. destruct a; reflexivity. Qed.

Lemma response_status_body_chunks h a :
  response_status (body_chunks h a) = None.
Proof.
  destruct a as [code extra [data|]|code message explain]; cbn.
  - now destruct (data =? "")%string.
  - reflexivity.
  - now destruct (has_error_body code && writes_error_body h _).
Qed.

(** ** The handler's claims *)

Lemma not_HTTP_0_9 h :
  request_version h <> "HTTP/0.9" ->
  BaseHTTPRequestHandler.is_HTTP_0_9 h = false.
Proof. intros N. now apply String.eqb_neq. Qed.





(** The handler of a connection runs the method of its request and
    returns, the answer sent. *)
Lemma Handler_run lib env client rq w :
  Handler lib env (new_handler client rq w) =
  (Return tt,
   answered env
     (answer_to lib (fs env) (new_handler client rq w) (rq_command rq))
     (new_handler client rq w)).
Proof. now apply handle_one_request_run. Qed.

Lemma wfile_new_handler lib env client rq w :
  rq_version rq <> "HTTP/0.9" ->
  wfile (snd (Handler lib env (new_handler client rq w))) =
  response_of env (new_handler client rq w)
    (answer_to lib (fs env) (new_handler client rq w) (rq_command rq)).
Proof.
  intros N. rewrite Handler_run. cbn [snd].
  rewrite wfile_answered by (now apply not_HTTP_0_9). reflexivity.
Qed.












(** ** The response is a function of the request, the directory and the
    machine *)

Lemma answer_to_new_handler lib files client rq w :
  answer_to lib files (new_handler client rq w) (rq_command rq) =
  answer_to lib files
    (mk_handler (EmptyString, 0) (cwd w) (Some (rq_command rq)) (rq_path rq)
       (rq_version rq) (rq_line rq) (rq_headers rq) true [] [] [] [])
    (rq_command rq).
Proof. reflexivity. Qed.

Lemma body_chunks_ext h1 h2 a :
  command h1 = command h2 -> body_chunks h1 a = body_chunks h2 a.
Proof.
  intros E. destruct a as [code extra source|code message explain];
    [reflexivity|].
  unfold body_chunks, writes_error_body. now rewrite E.
Qed.

Lemma wfile_answered_ext env a h1 h2 :
  request_version h1 = request_version h2 ->
  command h1 = command h2 ->
  wfile h1 = wfile h2 ->
  _headers_buffer h1 = _headers_buffer h2 ->
  wfile (answered env a h1) = wfile (answered env a h2).
Proof.
  intros V C W B.
  destruct (BaseHTTPRequestHandler.is_HTTP_0_9 h1) eqn:E.
  - assert (E2 : BaseHTTPRequestHandler.is_HTTP_0_9 h2 = true).
    { unfold BaseHTTPRequestHandler.is_HTTP_0_9 in *. now rewrite <- V. }
    rewrite !wfile_answered_0_9 by assumption.
    unfold response_0_9_of. now rewrite W, (body_chunks_ext h1 h2 a C).
  - assert (E2 : BaseHTTPRequestHandler.is_HTTP_0_9 h2 = false).
    { unfold BaseHTTPRequestHandler.is_HTTP_0_9 in *. now rewrite <- V. }
    rewrite !wfile_answered by assumption.
    unfold response_of. now rewrite W, B, (body_chunks_ext h1 h2 a C).
Qed.

Lemma reply_eq lib env dir rq :
  let h := mk_handler (EmptyString, 0) dir (Some (rq_command rq)) (rq_path rq)
             (rq_version rq) (rq_line rq) (rq_headers rq) true [] [] [] [] in
  reply lib env dir rq =
  if (rq_version rq =? "HTTP/0.9")%string
  then response_0_9_of h (answer_to lib (fs env) h (rq_command rq))
  else response_of env h (answer_to lib (fs env) h (rq_command rq)).
Proof.
  intros h. unfold reply. fold h.
  rewrite (handle_one_request_run lib env h (rq_command rq) eq_refl).
  cbn [snd].
  destruct (rq_version rq =? "HTTP/0.9")%string eqn:E.
  - now rewrite wfile_answered_0_9 by exact E.
  - now rewrite wfile_answered by exact E.
Qed.

(** The response does not depend on the client nor on what the process
    has logged: it is [reply] of the request in the working directory. *)
Lemma wfile_Handler lib env client rq w :
  wfile (snd (Handler lib env (new_handler client rq w))) =
  reply lib env (cwd w) rq.
Proof.
  rewrite reply_eq, Handler_run. cbn [snd].
  rewrite answer_to_new_handler.
  set (h := mk_handler _ _ _ _ _ _ _ _ _ _ _ _).
  set (a := answer_to lib (fs env) h (rq_command rq)).
  destruct (rq_version rq =? "HTTP/0.9")%string eqn:E.
  - rewrite wfile_answered_0_9 by exact E. unfold response_0_9_of.
    now rewrite (body_chunks_ext (new_handler client rq w) h a eq_refl).
  - rewrite wfile_answered by exact E. unfold response_of.
    now rewrite (body_chunks_ext (new_handler client rq w) h a eq_refl).
Qed.






(** ** The log *)

Lemma code_of_answer_to lib files h c :
  match answer_to lib files h c with
  | Plain code _ _ => code = 200 \/ code = 301 \/ code = 304
  | Error code _ _ => code = 404 \/ code = 501
  end.
Proof.
  assert (F : forall p,
    match file_answer lib files h p with
    | Plain code _ _ => code = 200 \/ code = 301 \/ code = 304
    | Error code _ _ => code = 404 \/ code = 501
    end).
  { intros p. unfold file_answer. destruct (Py.endswith_slash p); [now left|].
    destruct (os.open files p) as [[content mtime]|]; [|now left].
    destruct (not_modified lib h mtime); [now right; right|now left]. }
  assert (H : match head_answer lib files h with
              | Plain code _ _ => code = 200 \/ code = 301 \/ code = 304
              | Error code _ _ => code = 404 \/ code = 501
              end).
  { unfold head_answer. destruct (os.isdir files _); [|apply F].
    destruct (negb _); [now right; left|].
    destruct (os.isfile files _); [apply F|].
    destruct (os.isfile files _); [apply F|].
    unfold directory_answer. destruct (os.listdir files _); now left. }
  unfold answer_to.
  destruct (c =? "GET")%string; [exact H|].
  destruct (c =? "HEAD")%string.
  { destruct (head_answer lib files h); exact H. }
  destruct (c =? "OPTIONS")%string; [now left|now right].
Qed.

(** C8, as the specification states it, fails: the request for a file
    that does not exist is logged in two lines, the error and then the
    request. *)
Lemma C8_counterexample :
  let rq := mk_request "GET" "/missing" "HTTP/1.1" "GET /missing HTTP/1.1" [] in
  let h' := snd (Handler example_lib (example_env 0)
                   (new_handler example_client rq (start "/srv/demo"))) in
  sys_stdout h' =
    [log_line "127.0.0.1" "code 404, message File not found";
     log_line "127.0.0.1"
       (Py.dquote ++ "GET /missing HTTP/1.1" ++ Py.dquote ++ " 404 -")] /\
  List.length (sys_stdout h') <> 1%nat.
Proof. cbv zeta. split; [reflexivity|]. vm_compute. discriminate. Qed.

(** C8 (amended).  Every log line of a handled request is written to
    standard output, none to standard error, in the form: the client
    address, [" - "], the log message, a newline.  A request answered
    with a status below 400 (200, 301 or 304) is logged in exactly one
    line, whose message is the standard one: the request line in double
    quotes, the status and a dash.  A request answered with an error (404
    or 501) is logged in two lines: the error with its message, then the
    standard line. *)
Theorem C8_log_lines lib env client rq w :
  let h := new_handler client rq w in
  let h' := snd (Handler lib env h) in
  sys_stderr h' = stderr w /\
  exists code,
    (rq_version rq <> "HTTP/0.9" -> response_status (wfile h') = Some code) /\
    ((code < 400 /\
      sys_stdout h' =
        (stdout w ++ [log_line (fst client) (request_log h code)])%list)
     \/
     (400 <= code /\
      exists message,
        sys_stdout h' =
          (stdout w ++ [log_line (fst client) (error_log code message);
                        log_line (fst client) (request_log h code)])%list)).
Proof.
  intros h h'. unfold h'.
  assert (W : rq_version rq <> "HTTP/0.9" ->
    response_status (wfile (snd (Handler lib env h))) =
    Some (code_of (answer_to lib (fs env) h (rq_command rq)))).
  { intros N. unfold h. rewrite wfile_new_handler by exact N.
    apply response_status_of. }
  unfold h in *. rewrite Handler_run in *. cbn [snd] in *. fold h in W |- *.
  destruct (streams_answered env (answer_to lib (fs env) h (rq_command rq)) h)
    as [O E].
  split; [exact E|].
  exists (code_of (answer_to lib (fs env) h (rq_command rq))).
  split; [exact W|].
  rewrite O.
  pose proof (code_of_answer_to lib (fs env) h (rq_command rq)) as C.
  destruct (answer_to lib (fs env) h (rq_command rq))
    as [code extra source|code message explain]; cbn [code_of log_of map].
  - left. split; [lia|reflexivity].
  - right. split; [lia|]. exists message. reflexivity.
Qed.

Lemma C8_log_lines_witness :
  let rq := mk_request "OPTIONS" "/anything" "HTTP/1.1"
              "OPTIONS /anything HTTP/1.1" [] in
  let h := new_handler example_client rq (start "/srv/demo") in
  let h' := snd (Handler example_lib (example_env 0) h) in
  sys_stderr h' = [] /\
  exists code,
    response_status (wfile h') = Some code /\
    ((code < 400 /\
      sys_stdout h' = [log_line "127.0.0.1" (request_log h code)])
     \/
     (400 <= code /\
      exists message,
        sys_stdout h' = [log_line "127.0.0.1" (error_log code message);
                         log_line "127.0.0.1" (request_log h code)])).
Proof.
  cbv zeta.
  destruct (C8_log_lines example_lib (example_env 0) example_client
    (mk_request "OPTIONS" "/anything" "HTTP/1.1"
       "OPTIONS /anything HTTP/1.1" []) (start "/srv/demo"))
    as [E [code [S L]]].
  split; [exact E|]. exists code. split; [|exact L].
  apply S. cbn. discriminate.
Defined.

(** ** The server *)

Lemma _handle_request_noblock_run lib client rq env w :
  TCPServer._handle_request_noblock (Handler lib) client rq env w =
  (Return tt, handled lib (client, rq, env) w).
Proof.
  unfold TCPServer._handle_request_noblock, handled.
  erewrite bind_run; [|reflexivity]. erewrite bind_run; [|reflexivity].
  cbn [fst snd]. rewrite Handler_run. reflexivity.
Qed.

Lemma shutdown_request_handled lib c w :
  shutdown_request (handled lib c w) = shutdown_request w.
Proof. reflexivity. Qed.

(** The loop handles the connections that come before the first
    interrupt; it is left by the interrupt, or waits for ever. *)
Lemma serve_loop_run lib events w :
  shutdown_request w = false ->
  TCPServer.serve_loop (Handler lib) events w =
  (if interrupted events then Raise KeyboardInterrupt else Hang,
   after_serving lib events w).
Proof.
  revert w. induction events as [|e events IH]; intros w S.
  - cbn. unfold bind, get. rewrite S. reflexivity.
  - cbn [TCPServer.serve_loop]. unfold bind at 1. unfold get at 1.
    rewrite S. destruct e as [client rq env|]; [|reflexivity].
    erewrite bind_run; [|apply _handle_request_noblock_run].
    rewrite IH by (now rewrite shutdown_request_handled).
    reflexivity.
Qed.

Lemma run_server_run lib m port w :
  chdir_error m (script_directory m w) = None ->
  0 <= port <= 65535 ->
  bind_error m (EmptyString, port) = None ->
  run_server lib m port w =
  let w1 := after_serving lib (incoming m)
              (listening (script_directory m w) port w) in
  if interrupted (incoming m) then (Return tt, stopped w1) else (Hang, w1).
Proof.
  intros C P B. unfold run_server.
  erewrite bind_run; [|reflexivity].
  fold (script_directory m w).
  erewrite bind_run;
    [|unfold chdir; rewrite C; erewrite bind_run; reflexivity].
  erewrite bind_run.
  2:{ unfold TCPServer.__init__.
      do 4 (erewrite bind_run; [|reflexivity]).
      unfold on_exception, TCPServer.server_bind.
      cbn [snd].
      replace ((port <? 0) || (65535 <? port)) with false
        by (symmetry; apply orb_false_iff; split;
            [apply Z.ltb_ge|apply Z.ltb_ge]; lia).
      erewrite bind_run.
      2:{ erewrite bind_run; [|reflexivity]. rewrite B. reflexivity. }
      unfold TCPServer.server_activate.
      erewrite bind_run; [|reflexivity].
      erewrite bind_run; [|reflexivity].
      reflexivity. }
  unfold try_finally, try_except.
  erewrite bind_run; [|reflexivity].
  unfold TCPServer.serve_forever.
  erewrite bind_run; [|reflexivity].
  unfold try_finally.
  rewrite serve_loop_run by reflexivity.
  cbv zeta. fold (listening (script_directory m w) port w).
  replace (set_is_shut_down false
             (listening (script_directory m w) port w))
    with (listening (script_directory m w) port w) by reflexivity.
  generalize (after_serving lib (incoming m)
                (listening (script_directory m w) port w)) as W.
  intros W.
  destruct (interrupted (incoming m)); reflexivity.
Qed.

Lemma after_serving_spec lib events w :
  let w' := after_serving lib events w in
  cwd w' = cwd w /\ socket w' = socket w /\
  is_shut_down w' = is_shut_down w /\
  shutdown_request w' = shutdown_request w /\
  trace w' = (trace w ++ map (fun c => sys_accept (fst (fst c)))
                           (served events))%list /\
  sent w' = (sent w ++ map (fun c => reply lib (snd c) (cwd w) (snd (fst c)))
                         (served events))%list.
Proof.
  unfold after_serving. generalize (served events) as l. clear events.
  intros l. revert w. induction l as [|c l IH]; intros w; cbn [fold_left map].
  - rewrite !app_nil_r. repeat split.
  - destruct (IH (handled lib c w)) as [C [S [I [R [T N]]]]].
    rewrite C, S, I, R, T, N. unfold handled at 1 2 3 4 5 6. cbv zeta.
    cbn [cwd socket is_shut_down shutdown_request trace sent add_sent
         set_streams add_trace].
    rewrite <- !app_assoc. cbn [app].
    destruct c as [[client rq] env]. cbn [fst snd].
    rewrite wfile_Handler. cbn [cwd add_trace].
    repeat split.
Qed.


Lemma accepts_app (t u : list syscall) :
  accepts (t ++ u) = (accepts t ++ accepts u)%list.
Proof.
  induction t as [|c t IH]; [reflexivity|]. destruct c; cbn; now rewrite IH.
Qed.

Lemma binds_accepts {A : Type} (f : A -> string * Z) (l : list A) :
  binds (map (fun c => sys_accept (f c)) l) = [] /\
  accepts (map (fun c => sys_accept (f c)) l) = map f l.
Proof.
  induction l as [|c l [IH1 IH2]]; [now split|]. cbn. now rewrite IH1, IH2.
Qed.

Lemma served_before_interrupt conns later :
  served (map connection conns ++ Interrupt :: later) = conns /\
  interrupted (map connection conns ++ Interrupt :: later) = true.
Proof.
  induction conns as [|[[client rq] env] conns [IH1 IH2]]; [now split|].
  cbn. now rewrite IH1, IH2.
Qed.









Lemma main_without_argument lib m prog w :
  main lib m [prog] w = run_server lib m 8080 w.
Proof. reflexivity. Qed.

(** C7.  When the process is interrupted while it serves, [run_server]
    returns: it prints the stop message, [shutdown] does not wait (the
    end of [serve_forever] has set the event it waits for), and leaving
    the [with] block closes the listening socket.  The connections that
    came before the interrupt have been accepted and answered, no later
    one is, and the process exits with status 0. *)
Theorem C7_interrupt lib m port w conns later :
  chdir_error m (script_directory m w) = None ->
  0 <= port <= 65535 ->
  bind_error m (EmptyString, port) = None ->
  incoming m = (map connection conns ++ Interrupt :: later)%list ->
  let w' := snd (run_server lib m port w) in
  fst (run_server lib m port w) = Return tt /\
  (forall argv,
     main lib m argv w = run_server lib m port w ->
     python lib m argv w = (Some 0, w')) /\
  (exists out,
     stdout w' =
       (out ++ [((Py.LF ++ Py.LF ++ "Server stopped.") ++ Py.LF)%string])%list) /\
  socket w' = Closed /\
  (exists t, trace w' = (t ++ [sys_close])%list) /\
  accepts (trace w') =
    (accepts (trace w) ++ map (fun c => fst (fst c)) conns)%list /\
  sent w' =
    (sent w ++ map (fun c => reply lib (snd c) (script_directory m w)
                               (snd (fst c))) conns)%list.
Proof.
  intros C P B I w'.
  destruct (served_before_interrupt conns later) as [Sv In].
  rewrite <- I in Sv, In.
  assert (R : run_server lib m port w =
              (Return tt,
               stopped (after_serving lib (incoming m)
                          (listening (script_directory m w) port w)))).
  { rewrite run_server_run by assumption. cbv zeta. now rewrite In. }
  unfold w'. rewrite R. cbn [fst snd].
  destruct (after_serving_spec lib (incoming m)
              (listening (script_directory m w) port w))
    as [_ [_ [_ [_ [T N]]]]].
  rewrite Sv in T, N.
  split; [reflexivity|]. split.
  { intros argv A. unfold python. rewrite A. reflexivity. }
  split; [eexists; reflexivity|]. split; [reflexivity|].
  split; [eexists; reflexivity|]. split.
  - cbn [stopped trace set_socket add_trace set_shutdown_request write_stdout
         world_console set_streams set_is_shut_down].
    rewrite T.
    cbn [listening trace set_socket add_trace set_shutdown_request
         write_stdout world_console set_streams set_is_shut_down set_cwd].
    rewrite !accepts_app, (proj2 (binds_accepts _ _)). cbn.
    now rewrite !app_nil_r.
  - cbn [stopped sent set_socket add_trace set_shutdown_request write_stdout
         world_console set_streams set_is_shut_down].
    rewrite N. reflexivity.
Qed.

Lemma C7_interrupt_witness :
  let rq := mk_request "GET" "/api-client-demo.html" "HTTP/1.1"
              "GET /api-client-demo.html HTTP/1.1" [] in
  let m := example_machine
             [Connection example_client rq (example_env 0); Interrupt;
              Connection example_client rq (example_env 5)] in
  let w' := snd (run_server example_lib m 8080 (start "/home/dev")) in
  python example_lib m ["serve-demo.py"] (start "/home/dev") = (Some 0, w') /\
  socket w' = Closed /\
  accepts (trace w') = [example_client] /\
  List.length (sent w') = 1%nat.
Proof.
  cbv zeta.
  destruct (C7_interrupt example_lib
    (example_machine
       [Connection example_client
          (mk_request "GET" "/api-client-demo.html" "HTTP/1.1"
             "GET /api-client-demo.html HTTP/1.1" []) (example_env 0);
        Interrupt;
        Connection example_client
          (mk_request "GET" "/api-client-demo.html" "HTTP/1.1"
             "GET /api-client-demo.html HTTP/1.1" []) (example_env 5)])
    8080 (start "/home/dev")
    [(example_client,
      mk_request "GET" "/api-client-demo.html" "HTTP/1.1"
        "GET /api-client-demo.html HTTP/1.1" [], example_env 0)]
    [Connection example_client
       (mk_request "GET" "/api-client-demo.html" "HTTP/1.1"
          "GET /api-client-demo.html HTTP/1.1" []) (example_env 5)]
    eq_refl ltac:(lia) eq_refl eq_refl)
    as [_ [E [_ [S [_ [A N]]]]]].
  split.
  { apply E. apply (main_without_argument example_lib _ "serve-demo.py"). }
  split; [exact S|]. split; [exact A|]. rewrite N. reflexivity.
Defined.
